(** * DropdownMenu: a shallow embedding of
      packages/react/dropdown-menu/src/DropdownMenu.tsx

    The component is a root (open state, id, context), a trigger (a host
    element with ARIA attributes and two composed event handlers) and a
    popper (the props handed to the menu primitive, three of them
    handlers).  A props object is a record of the props the source names,
    with a finite map from names to values for the attribute props that are
    passed through; JSX is the merge of its layers in source order; and an
    event handler is a computation in a small state monad over the mutable
    things the handlers touch: the [defaultPrevented] flag of the event, the
    two React state cells, the trigger ref, the focused element, and a trace
    of the calls the component makes. *)

From Stdlib Require Import ZArith.
From stdpp Require Import base option strings list gmap.

(** ** Values *)

(** A DOM node, by identity. *)
Definition Element := nat.

(** The value of a host-element prop. [AUndefined] is a key that is present
    with the value [undefined]: it overrides an earlier layer of the JSX like
    any other value, and React renders no attribute for it. *)
Inductive AttrValue :=
| AUndefined
| ABool (b : bool)
| AString (s : string).

Global Instance AttrValue_eq_dec : EqDecision AttrValue.
Proof. solve_decision. Defined.

(** The attribute that reaches the DOM: none for a missing key and none for
    [undefined]. *)
Definition rendered (v : option AttrValue) : option AttrValue :=
  match v with
  | Some AUndefined | None => None
  | Some a => Some a
  end.

(** The React ref objects the component passes around. *)
Inductive Ref :=
| TriggerRef
| CallerRef (n : nat).

(** ** Events *)

Record MouseEvent := {
  button : Z;
  ctrlKey : bool;
  shiftKey : bool;
  altKey : bool;
  metaKey : bool
}.

Record KeyboardEvent := { key : string }.

(** The event the primitive hands to [onPointerDownOutside] and
    [onInteractOutside]. *)
Record OutsideEvent := { target : option Element }.

(** The event the primitive hands to [onCloseAutoFocus]. *)
Inductive AutoFocusEvent := CloseAutoFocus.

(** ** Effects *)

(** The caller's callbacks, by the prop they were passed as. *)
Inductive Callback :=
| OnClick
| OnMouseDown
| OnKeyDown
| OnPointerDownOutside
| OnInteractOutside.

Global Instance Callback_eq_dec : EqDecision Callback.
Proof. solve_decision. Defined.

Inductive Effect :=
| Called (c : Callback)                 (* a caller-supplied event handler ran *)
| Notified (v : option bool)            (* onIsOpenChange(v) *)
| PreventDefault                        (* the component called event.preventDefault() *)
| SetSkipCloseAutoFocus (b : bool)      (* setSkipCloseAutoFocus(b) *)
| Focus (el : Element).                 (* el.focus() *)

Global Instance Effect_eq_dec : EqDecision Effect.
Proof. solve_decision. Defined.

(** Everything a handler of this file reads or writes.  The state cells hold
    the value the next render sees: React applies queued writes in order, so
    a write here overwrites the one before it. *)
Record World := mkWorld {
  uncontrolledProp : option bool;       (* the local cell of useControlledState *)
  skipCloseAutoFocus : bool;            (* React.useState(false) of the popper *)
  triggerRef_current : option Element;  (* context.triggerRef.current *)
  activeElement : option Element;       (* document.activeElement *)
  defaultPrevented : bool;              (* event.defaultPrevented, of the event in flight *)
  trace : list Effect;
  focusable : Element → bool            (* the elements that can take the focus *)
}.

Definition M (A : Type) : Type := World → A * World.

Global Instance M_ret : MRet M := λ A a w, (a, w).
Global Instance M_bind : MBind M := λ A B f m w, f (m w).1 (m w).2.

Definition exec {A} (m : M A) (w : World) : World := (m w).2.

Definition emit (e : Effect) : M unit := λ w,
  ((), mkWorld (uncontrolledProp w) (skipCloseAutoFocus w) (triggerRef_current w)
               (activeElement w) (defaultPrevented w) (trace w ++ [e]) (focusable w)).

Definition read {A} (f : World → A) : M A := λ w, (f w, w).

Definition write_uncontrolledProp (v : option bool) : M unit := λ w,
  ((), mkWorld v (skipCloseAutoFocus w) (triggerRef_current w)
               (activeElement w) (defaultPrevented w) (trace w) (focusable w)).

Definition write_skipCloseAutoFocus (b : bool) : M unit := λ w,
  ((), mkWorld (uncontrolledProp w) b (triggerRef_current w)
               (activeElement w) (defaultPrevented w) (trace w) (focusable w)).

Definition write_activeElement (el : option Element) : M unit := λ w,
  ((), mkWorld (uncontrolledProp w) (skipCloseAutoFocus w) (triggerRef_current w)
               el (defaultPrevented w) (trace w) (focusable w)).

Definition write_defaultPrevented (b : bool) : M unit := λ w,
  ((), mkWorld (uncontrolledProp w) (skipCloseAutoFocus w) (triggerRef_current w)
               (activeElement w) b (trace w) (focusable w)).

(** [event.preventDefault()], called by the component. *)
Definition preventDefault : M unit :=
  emit PreventDefault ;; write_defaultPrevented true.

(** [setSkipCloseAutoFocus(b)]. *)
Definition setSkipCloseAutoFocus (b : bool) : M unit :=
  emit (SetSkipCloseAutoFocus b) ;; write_skipCloseAutoFocus b.

(** [el.focus()]: the element becomes the active element when it can take
    the focus (a link without an href, or a disabled button, cannot), and
    nothing moves otherwise. *)
Definition focus (el : Element) : M unit :=
  emit (Focus el) ;;
  can ← read focusable;
  if (can el : bool) then write_activeElement (Some el) else mret ().

(** [context.triggerRef.current?.focus()]. *)
Definition focusTrigger : M unit :=
  current ← read triggerRef_current;
  match current with
  | Some el => focus el
  | None => mret ()
  end.

(** A new event starts out not default-prevented. *)
Definition fresh (w : World) : World :=
  mkWorld (uncontrolledProp w) (skipCloseAutoFocus w) (triggerRef_current w)
          (activeElement w) false (trace w) (focusable w).

Definition dispatch {E} (handler : E → M unit) (event : E) (w : World) : World :=
  exec (handler event) (fresh w).

(** ** The caller's callbacks *)

(** A caller-supplied event handler is opaque to the component.  Of what it
    does, the component can observe only whether it called
    [event.preventDefault()]; the handler is that decision. *)
Definition EventHandler (E : Type) : Type := E → bool.

(** Calling the caller's handler passed as prop [c]. *)
Definition call {E} (c : Callback) (h : EventHandler E) : E → M unit := λ event,
  emit (Called c) ;;
  if h event then write_defaultPrevented true else mret ().

(** [handler?.(event)]. *)
Definition call_opt {E} (h : option (E → M unit)) (event : E) : M unit :=
  match h with
  | Some h => h event
  | None => mret ()
  end.

(** ** Helpers of @interop-ui/react-utils *)

(** Modelled from the spec: composeEventHandlers is imported from
    @interop-ui/react-utils and is not among the sources.  The spec: "composed
    handlers run in the fixed order: caller-supplied handler first, then
    internal handler, unless the caller's handler marks the event as fully
    handled", and they "never short-circuit each other except via explicit
    default-prevention". *)
Definition composeEventHandlers {E}
    (originalEventHandler : option (E → M unit))
    (ourEventHandler : E → M unit) : E → M unit := λ event,
  call_opt originalEventHandler event ;;
  prevented ← read defaultPrevented;
  if (prevented : bool) then mret () else ourEventHandler event.

(** [React.SetStateAction<boolean | undefined>]: a value or an updater. *)
Inductive SetStateAction :=
| NextValue (v : option bool)
| Updater (f : option bool → option bool).

Definition resolve (action : SetStateAction) (prev : option bool) : option bool :=
  match action with
  | NextValue v => v
  | Updater f => f prev
  end.

Record UseControlledStateParams := {
  prop : option bool;
  defaultProp : option bool;
  onChange : option (bool → unit)
}.

(** Modelled from the spec: useControlledState is imported from
    @interop-ui/react-utils and is not among the sources.  The spec: "if an
    explicit value is supplied, it is authoritative and all writes are
    forwarded to the change callback without local mutation; otherwise a
    local default is used and writes mutate local state directly".  The local
    cell is initialised from [defaultProp] when the root mounts (see [mount]);
    the spec says nothing of a notification in the uncontrolled case, and
    none is modelled. *)
Definition useControlledState (params : UseControlledStateParams) (w : World)
    : option bool * (SetStateAction → M unit) :=
  match prop params with
  | Some p =>
      let setValue (action : SetStateAction) : M unit :=
        match onChange params with
        | Some _ => emit (Notified (resolve action (Some p)))
        | None => mret ()
        end in
      (Some p, setValue)
  | None =>
      let setValue (action : SetStateAction) : M unit :=
        prev ← read uncontrolledProp;
        write_uncontrolledProp (resolve action prev) in
      (uncontrolledProp w, setValue)
  end.

(** ** DropdownMenu *)

Definition DROPDOWN_MENU_NAME : string := "DropdownMenu".

Record DropdownMenuContextValue := {
  context_triggerRef : Ref;
  context_id : string;
  context_isOpen : bool;
  context_setIsOpen : SetStateAction → M unit
}.

Record DropdownMenuOwnProps := {
  idProp : option string;
  isOpenProp : option bool;
  defaultIsOpen : option bool;
  onIsOpenChange : option (bool → unit)
}.

(** [a || b] on [string | undefined]: the empty string is falsy. *)
Definition or_string (a : option string) (b : string) : string :=
  match a with
  | Some EmptyString | None => b
  | Some s => s
  end.

(** [!x] on [boolean | undefined]. *)
Definition js_not (x : option bool) : bool :=
  match x with
  | Some b => negb b
  | None => true
  end.

(** The root's render: the context it provides.  [generatedId] is what
    [useId()] returned for this instance. *)
Definition DropdownMenu (props : DropdownMenuOwnProps) (generatedId : string)
    (w : World) : DropdownMenuContextValue :=
  let triggerRef := TriggerRef in
  let id := or_string (idProp props) ("dropdown-menu-" +:+ generatedId) in
  let '(isOpen, setIsOpen) :=
    useControlledState {| prop := isOpenProp props;
                          defaultProp := defaultIsOpen props;
                          onChange := onIsOpenChange props |} w in
  {| context_triggerRef := triggerRef;
     context_id := id;
     context_isOpen := default false isOpen;
     context_setIsOpen := setIsOpen |}.

(** The world right after the root mounted: the local cell holds
    [defaultIsOpen], the skip flag is false, no trigger element yet; a page
    all of whose elements can take the focus. *)
Definition mount (props : DropdownMenuOwnProps) : World :=
  mkWorld (defaultIsOpen props) false None None false [] (λ _, true).

(** ** JSX *)

(** A rendered host element: its tag, its attribute props, and the handler
    props this file is concerned with.  (The [ref] prop is left out: no
    statement below depends on ref composition.) *)
Record HostElement := {
  el_tag : string;
  el_attrs : gmap string AttrValue;
  el_onClick : option (MouseEvent → M unit);
  el_onMouseDown : option (MouseEvent → M unit);
  el_onKeyDown : option (KeyboardEvent → M unit)
}.

(** [<Comp />], before any prop. *)
Definition element (Comp : string) : HostElement :=
  {| el_tag := Comp; el_attrs := ∅;
     el_onClick := None; el_onMouseDown := None; el_onKeyDown := None |}.

(** [name={value}]: a later prop replaces an earlier one of the same name. *)
Definition attr (name : string) (value : AttrValue) (el : HostElement) : HostElement :=
  {| el_tag := el_tag el; el_attrs := <[name := value]> (el_attrs el);
     el_onClick := el_onClick el; el_onMouseDown := el_onMouseDown el;
     el_onKeyDown := el_onKeyDown el |}.

(** [{...object}] of an object of attribute props: its keys replace the
    earlier ones, the other keys stay. *)
Definition spread (object : gmap string AttrValue) (el : HostElement) : HostElement :=
  {| el_tag := el_tag el; el_attrs := object ∪ el_attrs el;
     el_onClick := el_onClick el; el_onMouseDown := el_onMouseDown el;
     el_onKeyDown := el_onKeyDown el |}.

Definition set_onMouseDown (h : MouseEvent → M unit) (el : HostElement) : HostElement :=
  {| el_tag := el_tag el; el_attrs := el_attrs el;
     el_onClick := el_onClick el; el_onMouseDown := Some h;
     el_onKeyDown := el_onKeyDown el |}.

Definition set_onKeyDown (h : KeyboardEvent → M unit) (el : HostElement) : HostElement :=
  {| el_tag := el_tag el; el_attrs := el_attrs el;
     el_onClick := el_onClick el; el_onMouseDown := el_onMouseDown el;
     el_onKeyDown := Some h |}.

(** What React does with a DOM event on a rendered element: run the handler
    prop of that name, if there is one. *)
Definition click (el : HostElement) : MouseEvent → M unit := call_opt (el_onClick el).
Definition mouseDown (el : HostElement) : MouseEvent → M unit := call_opt (el_onMouseDown el).
Definition keyDown (el : HostElement) : KeyboardEvent → M unit := call_opt (el_onKeyDown el).

(** ** DropdownMenuTrigger *)

Definition TRIGGER_NAME : string := "DropdownMenuTrigger".
Definition TRIGGER_DEFAULT_TAG : string := "button".

(** [...triggerProps]: the props of the trigger that are left once [as] and
    [onClick] are taken out. *)
Record HostProps := {
  onMouseDown : option (EventHandler MouseEvent);
  onKeyDown : option (EventHandler KeyboardEvent);
  attrs : gmap string AttrValue
}.

(** [{ as, onClick, ...triggerProps }]. *)
Record DropdownMenuTriggerProps := {
  as_ : option string;
  onClick : option (EventHandler MouseEvent);
  triggerProps : HostProps
}.

(** [{...triggerProps}]: the attribute props and the two handler props of
    [HostProps].  There is no [onClick] among them. *)
Definition spread_host (object : HostProps) (el : HostElement) : HostElement :=
  {| el_tag := el_tag el; el_attrs := attrs object ∪ el_attrs el;
     el_onClick := el_onClick el;
     el_onMouseDown :=
       match onMouseDown object with
       | Some h => Some (call OnMouseDown h)
       | None => el_onMouseDown el
       end;
     el_onKeyDown :=
       match onKeyDown object with
       | Some h => Some (call OnKeyDown h)
       | None => el_onKeyDown el
       end |}.

(** ** DropdownMenuPopper *)

Definition POPPER_NAME : string := "DropdownMenuPopper".

(** [...popperProps]: what is left of the popper's props after the
    destructuring. *)
Record MenuRootRest := {
  style : option (gmap string string);
  rest : gmap string AttrValue
}.

Record DropdownMenuPopperProps := {
  anchorRef : option Ref;
  disableOutsidePointerEvents : option bool;
  onPointerDownOutside : option (EventHandler OutsideEvent);
  onInteractOutside : option (EventHandler OutsideEvent);
  disableOutsideScroll : option bool;
  shouldPortal : option bool;
  popperProps : MenuRootRest
}.

(** The props [MenuPrimitive.Root] is rendered with: a field for each prop
    the popper sets itself after the spreads, and [root_attrs] for the props
    of every other name. *)
Record MenuRootProps := {
  root_attrs : gmap string AttrValue;
  root_style : gmap string string;
  root_isOpen : bool;
  root_onIsOpenChange : SetStateAction → M unit;
  root_anchorRef : Ref;
  root_trapFocus : bool;
  root_onCloseAutoFocus : AutoFocusEvent → M unit;
  root_disableOutsidePointerEvents : bool;
  root_onPointerDownOutside : OutsideEvent → M unit;
  root_onInteractOutside : option (OutsideEvent → M unit);
  root_disableOutsideScroll : bool;
  root_shouldPortal : bool;
  root_onDismiss : unit → M unit
}.

(** The names of the props the popper sets itself, after [{...popperProps}]
    and the data attributes: a prop of one of these names from a spread is
    replaced.  ([id] is set after the spreads too; it is kept in
    [root_attrs].) *)
Definition popperOwnProps : list string :=
  ["style"; "isOpen"; "onIsOpenChange"; "anchorRef"; "trapFocus";
   "onCloseAutoFocus"; "disableOutsidePointerEvents"; "onPointerDownOutside";
   "onInteractOutside"; "disableOutsideScroll"; "shouldPortal"; "onDismiss"].

(** A props object without the keys that later props of the JSX replace. *)
Definition replaced (names : list string) (object : gmap string AttrValue)
    : gmap string AttrValue :=
  foldr delete object names.

Section Parts.

(** [getPartDataAttrObj] of @interop-ui/utils is not among the sources: the
    object of data attributes it returns for a part name is a parameter. *)
Context (getPartDataAttrObj : string → gmap string AttrValue).

Definition DropdownMenuTrigger (props : DropdownMenuTriggerProps)
    (context : DropdownMenuContextValue) : HostElement :=
  let Comp := default TRIGGER_DEFAULT_TAG (as_ props) in
  let triggerProps := triggerProps props in
  let el := element Comp in
  let el := spread (getPartDataAttrObj TRIGGER_NAME) el in
  let el := attr "type" (AString "button") el in
  let el := attr "aria-haspopup" (AString "menu") el in
  let el := attr "aria-expanded"
              (if context_isOpen context then ABool true else AUndefined) el in
  let el := attr "aria-controls"
              (if context_isOpen context then AString (context_id context)
               else AUndefined) el in
  let el := spread_host triggerProps el in
  let el := set_onMouseDown
              (composeEventHandlers (call OnMouseDown <$> onMouseDown triggerProps)
                 (λ event,
                    (* only the left button, and not with the control key *)
                    if Z.eqb (button event) 0 && Bool.eqb (ctrlKey event) false
                    then context_setIsOpen context
                           (Updater (λ prevOpen, Some (js_not prevOpen)))
                    else mret ())) el in
  let el := set_onKeyDown
              (composeEventHandlers (call OnKeyDown <$> onKeyDown triggerProps)
                 (λ event,
                    if String.eqb (key event) " "
                       || String.eqb (key event) "ArrowUp"
                       || String.eqb (key event) "ArrowDown"
                    then preventDefault ;;
                         context_setIsOpen context (NextValue (Some true))
                    else mret ())) el in
  el.

(** The popper's render.  [w] is the world at render time: the handlers
    close over the value [React.useState] returned for [skipCloseAutoFocus]
    in this render. *)
Definition DropdownMenuPopper (props : DropdownMenuPopperProps)
    (context : DropdownMenuContextValue) (w : World) : MenuRootProps :=
  let anchorRef := anchorRef props in
  let disableOutsidePointerEvents := default true (disableOutsidePointerEvents props) in
  let onInteractOutside := onInteractOutside props in
  let disableOutsideScroll := default true (disableOutsideScroll props) in
  let shouldPortal := default true (shouldPortal props) in
  let popperProps := popperProps props in
  let skipCloseAutoFocus := skipCloseAutoFocus w in
  {| root_attrs :=
       <["id" := AString (context_id context)]>
         (replaced popperOwnProps
            (getPartDataAttrObj POPPER_NAME ∪ rest popperProps));
     root_style :=
       <["--radix-dropdown-menu-popper-transform-origin" :=
           "var(--radix-popper-transform-origin)"]> (default ∅ (style popperProps));
     root_isOpen := context_isOpen context;
     root_onIsOpenChange := context_setIsOpen context;
     root_anchorRef := default (context_triggerRef context) anchorRef;
     root_trapFocus := true;
     root_onCloseAutoFocus := λ event,
       if skipCloseAutoFocus then preventDefault else focusTrigger;
     root_disableOutsidePointerEvents := disableOutsidePointerEvents;
     root_onPointerDownOutside := λ event,
       current ← read triggerRef_current;
       let wasTrigger := bool_decide (target event = current) in
       (* skip autofocus on close if clicking outside is allowed and it happened *)
       setSkipCloseAutoFocus (negb disableOutsidePointerEvents) ;;
       (* prevent dismissing when clicking the trigger *)
       (if wasTrigger then preventDefault
        else call_opt (call OnInteractOutside <$> onInteractOutside) event) ;;
       prevented ← read defaultPrevented;
       (* reset this because the event was prevented *)
       if (prevented : bool) then setSkipCloseAutoFocus false else mret ();
     root_onInteractOutside := call OnInteractOutside <$> onInteractOutside;
     root_disableOutsideScroll := disableOutsideScroll;
     root_shouldPortal := shouldPortal;
     root_onDismiss := λ _, context_setIsOpen context (NextValue (Some false)) |}.

End Parts.

(** ** Observations *)

(** The values [onIsOpenChange] was called with, oldest first. *)
Fixpoint notifications (t : list Effect) : list (option bool) :=
  match t with
  | [] => []
  | Notified v :: t => v :: notifications t
  | _ :: t => notifications t
  end.

(** The values [setSkipCloseAutoFocus] was called with, oldest first. *)
Fixpoint flagWrites (t : list Effect) : list bool :=
  match t with
  | [] => []
  | SetSkipCloseAutoFocus b :: t => b :: flagWrites t
  | _ :: t => flagWrites t
  end.

(** How often the caller's handler passed as prop [c] ran. *)
Fixpoint calls (c : Callback) (t : list Effect) : nat :=
  match t with
  | [] => 0
  | Called c' :: t => (if bool_decide (c' = c) then 1 else 0) + calls c t
  | _ :: t => calls c t
  end.

(** Some modifier key is held. *)
Definition modifierHeld (event : MouseEvent) : bool :=
  ctrlKey event || shiftKey event || altKey event || metaKey event.

(** The event gets as far as the component's own handler: it was not
    default-prevented when it arrived, and the caller's handler of the same
    prop, if there is one, does not prevent it. *)
Definition reachesInternal {E} (h : option (EventHandler E)) (event : E)
    (w : World) : bool :=
  negb (defaultPrevented w) && negb (from_option (λ h, h event) false h).

(** Space, ArrowUp or ArrowDown. *)
Definition opensMenu (event : KeyboardEvent) : bool :=
  bool_decide (key event ∈ [" "; "ArrowUp"; "ArrowDown"]).

(** ** Examples to run the component on *)

Module Example.

Definition getPartDataAttrObj (name : string) : gmap string AttrValue :=
  {[ "data-part" := AString name ]}.

(** An uncontrolled root, closed, with no props at all. *)
Definition uncontrolled : DropdownMenuOwnProps :=
  {| idProp := None; isOpenProp := None; defaultIsOpen := None;
     onIsOpenChange := None |}.

(** An uncontrolled root with an id of the caller's, open from the start. *)
Definition named : DropdownMenuOwnProps :=
  {| idProp := Some "menu-1"; isOpenProp := None; defaultIsOpen := Some true;
     onIsOpenChange := None |}.

(** A trigger with no props of the caller's. *)
Definition plainTrigger : DropdownMenuTriggerProps :=
  {| as_ := None; onClick := None;
     triggerProps := {| onMouseDown := None; onKeyDown := None; attrs := ∅ |} |}.

(** A trigger whose caller handles key-down and prevents the default. *)
Definition preventingTrigger : DropdownMenuTriggerProps :=
  {| as_ := None; onClick := None;
     triggerProps :=
       {| onMouseDown := None; onKeyDown := Some (λ _, true); attrs := ∅ |} |}.

(** A trigger with ARIA props of the caller's. *)
Definition listboxTrigger : DropdownMenuTriggerProps :=
  {| as_ := None; onClick := None;
     triggerProps :=
       {| onMouseDown := None; onKeyDown := None;
          attrs := {[ "aria-haspopup" := AString "listbox";
                      "aria-expanded" := ABool false ]} |} |}.

Definition sidebarTrigger : DropdownMenuTriggerProps :=
  {| as_ := None; onClick := None;
     triggerProps :=
       {| onMouseDown := None; onKeyDown := None;
          attrs := {[ "aria-controls" := AString "sidebar" ]} |} |}.

Definition leftButton : MouseEvent :=
  {| button := 0; ctrlKey := false; shiftKey := false; altKey := false;
     metaKey := false |}.

Definition shiftLeftButton : MouseEvent :=
  {| button := 0; ctrlKey := false; shiftKey := true; altKey := false;
     metaKey := false |}.

Definition rightButton : MouseEvent :=
  {| button := 2; ctrlKey := false; shiftKey := false; altKey := false;
     metaKey := false |}.

Definition space : KeyboardEvent := {| key := " " |}.

(** The closed root right after it mounted, and that world one mouse-down
    or key-down on the trigger later. *)
Definition closed : World := mount uncontrolled.

Definition afterMouseDown (props : DropdownMenuTriggerProps)
    (event : MouseEvent) : World :=
  dispatch
    (mouseDown (DropdownMenuTrigger getPartDataAttrObj props
                  (DropdownMenu uncontrolled "1" closed)))
    event closed.

Definition afterKeyDown (props : DropdownMenuTriggerProps)
    (event : KeyboardEvent) : World :=
  dispatch
    (keyDown (DropdownMenuTrigger getPartDataAttrObj props
                (DropdownMenu uncontrolled "1" closed)))
    event closed.

(** A popper that lets pointer events through to the page, with a handler
    for outside interactions that prevents nothing. *)
Definition popper : DropdownMenuPopperProps :=
  {| anchorRef := None; disableOutsidePointerEvents := Some false;
     onPointerDownOutside := Some (λ _, false);
     onInteractOutside := Some (λ _, false);
     disableOutsideScroll := None; shouldPortal := None;
     popperProps := {| style := None; rest := ∅ |} |}.

(** The menu is open: the trigger is element 1, a button, the focus is on
    element 5, an item of the menu, and every element can take the focus. *)
Definition opened : World :=
  mkWorld (Some true) false (Some 1) (Some 5) false [] (λ _, true).

Definition pointerDownOutside (event : OutsideEvent) (w : World) : World :=
  dispatch
    (root_onPointerDownOutside
       (DropdownMenuPopper getPartDataAttrObj popper (DropdownMenu named "1" w) w))
    event w.

Definition closeAutoFocus (w : World) : World :=
  dispatch
    (root_onCloseAutoFocus
       (DropdownMenuPopper getPartDataAttrObj popper (DropdownMenu named "1" w) w))
    CloseAutoFocus w.


End Example.

(** ** Turns of the event loop *)

(** A mounted menu: the props of its three parts and the id [useId()] gave
    the root. *)
Record Mounted := {
  m_root : DropdownMenuOwnProps;
  m_generatedId : string;
  m_trigger : DropdownMenuTriggerProps;
  m_popper : DropdownMenuPopperProps
}.

(** What can happen to a mounted menu: an event on the trigger, or one of the
    callbacks the primitive is given. *)
Inductive Input :=
| MouseDownOnTrigger (event : MouseEvent)
| KeyDownOnTrigger (event : KeyboardEvent)
| PointerDownOutside (event : OutsideEvent)
| CloseAutoFocusOf
| Dismiss
| IsOpenChange (isOpen : bool).

(** One turn: the three parts render in the current world, and the handler
    of that render runs on a new event. *)
Definition turn (getPartDataAttrObj : string → gmap string AttrValue)
    (m : Mounted) (input : Input) (w : World) : World :=
  let context := DropdownMenu (m_root m) (m_generatedId m) w in
  let trigger := DropdownMenuTrigger getPartDataAttrObj (m_trigger m) context in
  let root := DropdownMenuPopper getPartDataAttrObj (m_popper m) context w in
  match input with
  | MouseDownOnTrigger event => dispatch (mouseDown trigger) event w
  | KeyDownOnTrigger event => dispatch (keyDown trigger) event w
  | PointerDownOutside event => dispatch (root_onPointerDownOutside root) event w
  | CloseAutoFocusOf => dispatch (root_onCloseAutoFocus root) CloseAutoFocus w
  | Dismiss => dispatch (root_onDismiss root) () w
  | IsOpenChange isOpen =>
      dispatch (root_onIsOpenChange root) (NextValue (Some isOpen)) w
  end.

Definition turns (getPartDataAttrObj : string → gmap string AttrValue)
    (m : Mounted) (inputs : list Input) (w : World) : World :=
  fold_left (λ w input, turn getPartDataAttrObj m input w) inputs w.

(** The caller's handler, if there is one, prevents the default of [event]. *)
Definition prevents {E} (h : option (EventHandler E)) (event : E) : bool :=
  from_option (λ h, h event) false h.

(** The open state one input later, as a user of the menu would tell it: a
    left press without the control key flips it, an opening key opens it, a
    dismissal closes it, the primitive sets it; an event whose default the
    caller's handler prevents does nothing. *)
Definition nextOpen (trigger : DropdownMenuTriggerProps) (isOpen : bool)
    (input : Input) : bool :=
  match input with
  | MouseDownOnTrigger event =>
      if negb (prevents (onMouseDown (triggerProps trigger)) event)
         && bool_decide (button event = 0%Z) && negb (ctrlKey event)
      then negb isOpen else isOpen
  | KeyDownOnTrigger event =>
      if negb (prevents (onKeyDown (triggerProps trigger)) event) && opensMenu event
      then true else isOpen
  | Dismiss => false
  | IsOpenChange b => b
  | PointerDownOutside _ | CloseAutoFocusOf => isOpen
  end.

(** How often the component itself called [event.preventDefault()]. *)
Fixpoint preventions (t : list Effect) : nat :=
  match t with
  | [] => 0
  | PreventDefault :: t => S (preventions t)
  | _ :: t => preventions t
  end.

Module Scenario.

(** A menu rendered as a link, whose caller listens to key-downs without
    preventing anything and passes a title; the popper has the default
    configuration, a style, and an id and a role of the caller's. *)
Definition modal : Mounted :=
  {| m_root := Example.uncontrolled;
     m_generatedId := "7";
     m_trigger :=
       {| as_ := Some "a"; onClick := None;
          triggerProps :=
            {| onMouseDown := None; onKeyDown := Some (λ _, false);
               attrs := {[ "title" := AString "Options" ]} |} |};
     m_popper :=
       {| anchorRef := None; disableOutsidePointerEvents := None;
          onPointerDownOutside := None; onInteractOutside := Some (λ _, false);
          disableOutsideScroll := None; shouldPortal := None;
          popperProps :=
            {| style := Some {[ "color" := "red" ]};
               rest := {[ "id" := AString "mine"; "role" := AString "menu" ]} |} |} |}.

(** A root that is passed the empty string as its id. *)
Definition emptyId : DropdownMenuOwnProps :=
  {| idProp := Some ""; isOpenProp := None; defaultIsOpen := None;
     onIsOpenChange := None |}.

(** A menu with a button for a trigger, open from the start, that lets
    pointer events through to the page. *)
Definition button : Mounted :=
  {| m_root := Example.named;
     m_generatedId := "1";
     m_trigger := Example.plainTrigger;
     m_popper := Example.popper |}.

(** A click on element 9 of the page closes the menu: the primitive reports
    the pointer-down, dismisses, and asks where the focus is to go. *)
Definition clickOutside : list Input :=
  [PointerDownOutside {| target := Some 9 |}; Dismiss; CloseAutoFocusOf].

(** Then the trigger opens the menu again and Escape dismisses it. *)
Definition reopenAndEscape : list Input :=
  [MouseDownOnTrigger Example.leftButton; Dismiss].

(** The world that leaves the open menu in: closed, the flag set since the
    click, the focus still on element 5. *)
Definition afterEscape : World :=
  mkWorld (Some false) true (Some 1) (Some 5) false
    [SetSkipCloseAutoFocus true; Called OnInteractOutside; PreventDefault]
    (λ _, true).

Definition enter : KeyboardEvent := {| key := "Enter" |}.
Definition arrowDown : KeyboardEvent := {| key := "ArrowDown" |}.

(** A press, a key, a dismissal, a press: open, open, closed, open. *)
Definition session : list Input :=
  [MouseDownOnTrigger Example.leftButton; KeyDownOnTrigger arrowDown; Dismiss;
   MouseDownOnTrigger Example.leftButton].

(** The same, then a pointer-down on element 9 of the page. *)
Definition sessionThenOutside : list Input :=
  session ++ [PointerDownOutside {| target := Some 9 |}].

(** The world of a mounted trigger (element 1) with the focus on element 5.
    The trigger is a link without an href: it cannot take the focus. *)
Definition mounted : World :=
  mkWorld None false (Some 1) (Some 5) false [] (λ el, bool_decide (el = 5)).

(** The world before the trigger element exists. *)
Definition unmounted : World :=
  mkWorld None false None (Some 5) false [] (λ el, bool_decide (el = 5)).

End Scenario.

(** * Theorems *)

(** ** The monad and the trace *)

Lemma exec_seq {A} (m : M A) (k : M unit) w :
  exec (m ;; k) w = exec k (exec m w).
Proof. reflexivity. Qed.

Lemma notifications_app t1 t2 :
  notifications (t1 ++ t2) = notifications t1 ++ notifications t2.
Proof.
  induction t1 as [|x t1 IH]; [done|].
  destruct x; simpl; by rewrite IH.
Qed.

Lemma flagWrites_app t1 t2 :
  flagWrites (t1 ++ t2) = flagWrites t1 ++ flagWrites t2.
Proof.
  induction t1 as [|x t1 IH]; [done|].
  destruct x; simpl; by rewrite IH.
Qed.

Lemma calls_app c t1 t2 : calls c (t1 ++ t2) = calls c t1 + calls c t2.
Proof.
  induction t1 as [|x t1 IH]; [done|].
  destruct x; simpl; rewrite IH; lia.
Qed.

Lemma opensMenu_eqb event :
  opensMenu event =
  String.eqb (key event) " " || String.eqb (key event) "ArrowUp"
  || String.eqb (key event) "ArrowDown".
Proof.
  unfold opensMenu.
  destruct (String.eqb_spec (key event) " ") as [->|H1]; [done|].
  destruct (String.eqb_spec (key event) "ArrowUp") as [->|H2]; [done|].
  destruct (String.eqb_spec (key event) "ArrowDown") as [->|H3]; [done|].
  apply bool_decide_eq_false. rewrite !elem_of_cons, elem_of_nil. tauto.
Qed.

(** Unfold one handler down to the world it returns. *)
Ltac run :=
  unfold exec, dispatch, fresh, composeEventHandlers, call_opt, call,
    preventDefault, setSkipCloseAutoFocus, focusTrigger, focus, emit, read,
    write_uncontrolledProp, write_skipCloseAutoFocus, write_activeElement,
    write_defaultPrevented, mbind, M_bind, mret, M_ret;
  simpl.

(** ** Composed handlers *)

(** The caller's handler runs first; when the event is still not
    default-prevented after it, the component's own handler runs in the
    world the caller's handler left, in which the open state is untouched. *)
Lemma composeEventHandlers_reaches {E} c (h : option (EventHandler E)) ours event w :
  reachesInternal h event w = true →
  ∃ w1, exec (composeEventHandlers (call c <$> h) ours event) w = exec (ours event) w1
        ∧ defaultPrevented w1 = false
        ∧ uncontrolledProp w1 = uncontrolledProp w
        ∧ notifications (trace w1) = notifications (trace w).
Proof.
  unfold reachesInternal. destruct w as [u s t a d tr fo], h as [h|]; simpl.
  - destruct d, (h event) eqn:Hh; try discriminate. intros _.
    exists (mkWorld u s t a false (tr ++ [Called c]) fo). run.
    rewrite Hh; simpl. rewrite notifications_app, app_nil_r. done.
  - destruct d; try discriminate. intros _.
    exists (mkWorld u s t a false tr fo). by run.
Qed.

(** When the event is default-prevented by then, the component's own handler
    does not run. *)
Lemma composeEventHandlers_skips {E} c (h : option (EventHandler E)) ours event w :
  reachesInternal h event w = false →
  exec (composeEventHandlers (call c <$> h) ours event) w =
  exec (call_opt (call c <$> h) event) w
  ∧ defaultPrevented (exec (call_opt (call c <$> h) event) w) = true
  ∧ uncontrolledProp (exec (call_opt (call c <$> h) event) w) = uncontrolledProp w
  ∧ notifications (trace (exec (call_opt (call c <$> h) event) w))
    = notifications (trace w).
Proof.
  unfold reachesInternal. destruct w as [u s t a d tr fo], h as [h|]; simpl.
  - destruct d, (h event) eqn:Hh; try discriminate; intros _; run;
      rewrite Hh; simpl; rewrite notifications_app, app_nil_r; done.
  - destruct d; try discriminate. intros _. by run.
Qed.

(** An own handler that leaves the open state alone makes a composed handler
    that does. *)
Lemma composeEventHandlers_frame {E} c (h : option (EventHandler E)) ours event w :
  (∀ w1, uncontrolledProp (exec (ours event) w1) = uncontrolledProp w1
         ∧ notifications (trace (exec (ours event) w1)) = notifications (trace w1)) →
  uncontrolledProp (exec (composeEventHandlers (call c <$> h) ours event) w)
  = uncontrolledProp w
  ∧ notifications (trace (exec (composeEventHandlers (call c <$> h) ours event) w))
    = notifications (trace w).
Proof.
  intros Hours.
  destruct (reachesInternal h event w) eqn:Hr.
  - destruct (composeEventHandlers_reaches c h ours event w Hr)
      as (w1 & -> & _ & Hu & Hn).
    destruct (Hours w1) as [-> ->]. done.
  - destruct (composeEventHandlers_skips c h ours event w Hr) as (-> & _ & Hu & Hn).
    done.
Qed.

(** ** The root *)

Lemma setIsOpen_uncontrolled props gen w0 action w :
  isOpenProp props = None →
  exec (context_setIsOpen (DropdownMenu props gen w0) action) w =
  mkWorld (resolve action (uncontrolledProp w)) (skipCloseAutoFocus w)
          (triggerRef_current w) (activeElement w) (defaultPrevented w) (trace w) (focusable w).
Proof. intros H. unfold DropdownMenu, useControlledState. simpl. rewrite H. by run. Qed.

Lemma setIsOpen_controlled props gen w0 action w p :
  isOpenProp props = Some p →
  exec (context_setIsOpen (DropdownMenu props gen w0) action) w =
  mkWorld (uncontrolledProp w) (skipCloseAutoFocus w)
          (triggerRef_current w) (activeElement w) (defaultPrevented w)
          (trace w ++ match onIsOpenChange props with
                      | Some _ => [Notified (resolve action (Some p))]
                      | None => []
                      end) (focusable w).
Proof.
  intros H. unfold DropdownMenu, useControlledState. simpl. rewrite H. simpl.
  destruct (onIsOpenChange props); run; [done|].
  rewrite app_nil_r. by destruct w.
Qed.

Lemma isOpen_uncontrolled props gen w :
  isOpenProp props = None →
  context_isOpen (DropdownMenu props gen w) = default false (uncontrolledProp w).
Proof. intros H. unfold DropdownMenu, useControlledState. simpl. by rewrite H. Qed.

Lemma isOpen_controlled props gen w p :
  isOpenProp props = Some p → context_isOpen (DropdownMenu props gen w) = p.
Proof. intros H. unfold DropdownMenu, useControlledState. simpl. by rewrite H. Qed.

(** ** The trigger *)

Section Trigger.

Context (getPartDataAttrObj : string → gmap string AttrValue).

Lemma mouseDown_trigger props context :
  mouseDown (DropdownMenuTrigger getPartDataAttrObj props context) =
  composeEventHandlers (call OnMouseDown <$> onMouseDown (triggerProps props))
    (λ event,
       if Z.eqb (button event) 0 && Bool.eqb (ctrlKey event) false
       then context_setIsOpen context (Updater (λ prevOpen, Some (js_not prevOpen)))
       else mret ()).
Proof. reflexivity. Qed.

Lemma keyDown_trigger props context :
  keyDown (DropdownMenuTrigger getPartDataAttrObj props context) =
  composeEventHandlers (call OnKeyDown <$> onKeyDown (triggerProps props))
    (λ event,
       if String.eqb (key event) " " || String.eqb (key event) "ArrowUp"
          || String.eqb (key event) "ArrowDown"
       then preventDefault ;; context_setIsOpen context (NextValue (Some true))
       else mret ()).
Proof. reflexivity. Qed.

Lemma trigger_attrs props context :
  el_attrs (DropdownMenuTrigger getPartDataAttrObj props context) =
  attrs (triggerProps props) ∪
    <["aria-controls" :=
        if context_isOpen context then AString (context_id context) else AUndefined]>
      (<["aria-expanded" := if context_isOpen context then ABool true else AUndefined]>
         (<["aria-haspopup" := AString "menu"]>
            (<["type" := AString "button"]>
               (getPartDataAttrObj TRIGGER_NAME ∪ ∅)))).
Proof. reflexivity. Qed.

(** C1, as amended.  A mouse-down on the trigger that reaches the component's
    own handler (the caller's [onMouseDown], if any, did not prevent the
    default) asks for a toggle exactly when it is a press of button 0 with
    the control key up; shift, alt and meta are not looked at.  Then an
    uncontrolled root's open state flips, and a controlled root keeps its
    local state and has [onIsOpenChange] called with the negated prop.  A
    mouse-down with another button, or with the control key down, never
    changes the open state and notifies nobody, whatever the caller's
    handler does. *)
Theorem trigger_mouseDown_toggles props rootProps gen event w :
  let context := DropdownMenu rootProps gen w in
  let w' :=
    exec (mouseDown (DropdownMenuTrigger getPartDataAttrObj props context) event) w in
  (button event = 0%Z → ctrlKey event = false →
   reachesInternal (onMouseDown (triggerProps props)) event w = true →
   match isOpenProp rootProps with
   | None =>
       context_isOpen (DropdownMenu rootProps gen w') = negb (context_isOpen context)
   | Some p =>
       uncontrolledProp w' = uncontrolledProp w
       ∧ notifications (trace w') =
         notifications (trace w) ++
           match onIsOpenChange rootProps with
           | Some _ => [Some (negb p)]
           | None => []
           end
   end)
  ∧ (button event ≠ 0%Z ∨ ctrlKey event = true →
     context_isOpen (DropdownMenu rootProps gen w') = context_isOpen context
     ∧ uncontrolledProp w' = uncontrolledProp w
     ∧ notifications (trace w') = notifications (trace w)).
Proof.
  intros context w'. subst w'. rewrite mouseDown_trigger. split.
  - intros Hb Hc Hr.
    match goal with
    | |- context [composeEventHandlers ?h ?ours] =>
        destruct (composeEventHandlers_reaches OnMouseDown _ ours event w Hr)
          as (w1 & -> & _ & Hu & Hn)
    end.
    rewrite Hb, Hc. simpl. subst context.
    destruct (isOpenProp rootProps) as [p|] eqn:Hp.
    + rewrite (setIsOpen_controlled _ _ _ _ _ p Hp). simpl.
      split; [done|]. rewrite notifications_app, Hn.
      by destruct (onIsOpenChange rootProps).
    + rewrite (setIsOpen_uncontrolled _ _ _ _ _ Hp).
      rewrite !isOpen_uncontrolled by done. simpl. rewrite Hu.
      by destruct (uncontrolledProp w) as [[]|].
  - intros Hne.
    assert (Z.eqb (button event) 0 && Bool.eqb (ctrlKey event) false = false) as Hg.
    { destruct Hne as [Hne| ->].
      - apply Z.eqb_neq in Hne. by rewrite Hne.
      - apply andb_false_r. }
    match goal with
    | |- context [composeEventHandlers ?h ?ours] =>
        destruct (composeEventHandlers_frame OnMouseDown
                    (onMouseDown (triggerProps props)) ours event w) as [Hu Hn]
    end.
    { intros w1. by rewrite Hg. }
    split; [|done].
    subst context. destruct (isOpenProp rootProps) as [p|] eqn:Hp.
    + by rewrite !(isOpen_controlled _ _ _ p Hp).
    + rewrite !isOpen_uncontrolled by done. by rewrite Hu.
Qed.

(** C8, as amended.  A key-down of Space, ArrowUp or ArrowDown on the trigger
    that reaches the component's own handler has its default action
    prevented and the open state written to true: an uncontrolled root is
    open afterwards whatever it was before, and a controlled root keeps its
    local state and has [onIsOpenChange] called with true.  When the event
    does not reach the component's own handler (the caller's [onKeyDown]
    prevented the default), the open state is as it was. *)
Theorem trigger_keyDown_opens props rootProps gen event w :
  let context := DropdownMenu rootProps gen w in
  let w' :=
    exec (keyDown (DropdownMenuTrigger getPartDataAttrObj props context) event) w in
  opensMenu event = true →
  (reachesInternal (onKeyDown (triggerProps props)) event w = true →
   defaultPrevented w' = true
   ∧ match isOpenProp rootProps with
     | None => context_isOpen (DropdownMenu rootProps gen w') = true
     | Some p =>
         uncontrolledProp w' = uncontrolledProp w
         ∧ notifications (trace w') =
           notifications (trace w) ++
             match onIsOpenChange rootProps with
             | Some _ => [Some true]
             | None => []
             end
     end)
  ∧ (reachesInternal (onKeyDown (triggerProps props)) event w = false →
     defaultPrevented w' = true
     ∧ context_isOpen (DropdownMenu rootProps gen w') = context_isOpen context
     ∧ uncontrolledProp w' = uncontrolledProp w
     ∧ notifications (trace w') = notifications (trace w)).
Proof.
  intros context w' Hkey. subst w'. rewrite keyDown_trigger.
  rewrite opensMenu_eqb in Hkey. split; intros Hr.
  - match goal with
    | |- context [composeEventHandlers ?h ?ours] =>
        destruct (composeEventHandlers_reaches OnKeyDown _ ours event w Hr)
          as (w1 & -> & _ & Hu & Hn)
    end.
    rewrite Hkey. subst context.
    destruct (isOpenProp rootProps) as [p|] eqn:Hp.
    + rewrite !exec_seq.
      rewrite (setIsOpen_controlled _ _ _ _ _ p Hp). simpl.
      split; [done|]. split; [done|].
      rewrite !notifications_app, Hn. simpl. rewrite app_nil_r.
      by destruct (onIsOpenChange rootProps).
    + rewrite !exec_seq.
      rewrite (setIsOpen_uncontrolled _ _ _ _ _ Hp). simpl.
      split; [done|]. by rewrite isOpen_uncontrolled.
  - match goal with
    | |- context [composeEventHandlers ?h ?ours] =>
        destruct (composeEventHandlers_skips OnKeyDown _ ours event w Hr)
          as (-> & Hd & Hu & Hn)
    end.
    split; [done|]. split; [|done].
    subst context. destruct (isOpenProp rootProps) as [p|] eqn:Hp.
    + by rewrite !(isOpen_controlled _ _ _ p Hp).
    + rewrite !isOpen_uncontrolled by done. by rewrite Hu.
Qed.

(** C4, on the code.  Whatever [onClick] handler the caller passes to the
    trigger, the rendered element has no [onClick] prop: the handler is taken
    out of the props by the destructuring and used nowhere.  A click on the
    trigger changes nothing and the caller's handler does not run. *)
Theorem trigger_drops_onClick h props context event w :
  let el :=
    DropdownMenuTrigger getPartDataAttrObj
      {| as_ := as_ props; onClick := Some h; triggerProps := triggerProps props |}
      context in
  el_onClick el = None
  ∧ exec (click el event) w = w
  ∧ calls OnClick (trace (exec (click el event) w)) = calls OnClick (trace w).
Proof. by repeat split. Qed.

(** C9, as amended.  The caller's props are spread after the ARIA
    attributes, so a prop of the caller's with the same name wins.  Where the
    caller passes none, the trigger renders aria-haspopup="menu";
    aria-expanded is rendered, as true, exactly when the menu is open; and
    aria-controls is rendered, as the id of the context, exactly when the
    menu is open. *)
Theorem trigger_aria_attributes props context :
  let el := DropdownMenuTrigger getPartDataAttrObj props context in
  let own := attrs (triggerProps props) in
  (∀ name v, own !! name = Some v → el_attrs el !! name = Some v)
  ∧ (own !! "aria-haspopup" = None →
     rendered (el_attrs el !! "aria-haspopup") = Some (AString "menu"))
  ∧ (own !! "aria-expanded" = None →
     rendered (el_attrs el !! "aria-expanded") =
     if context_isOpen context then Some (ABool true) else None)
  ∧ (own !! "aria-controls" = None →
     rendered (el_attrs el !! "aria-controls") =
     if context_isOpen context then Some (AString (context_id context)) else None).
Proof.
  intros el own. subst el own. rewrite trigger_attrs.
  split; [|split; [|split]].
  - intros name v H. by apply lookup_union_Some_l.
  - intros H. rewrite lookup_union_r by done.
    rewrite !lookup_insert_ne by done. by rewrite lookup_insert_eq.
  - intros H. rewrite lookup_union_r by done.
    rewrite !lookup_insert_ne by done. rewrite lookup_insert_eq.
    by destruct (context_isOpen context).
  - intros H. rewrite lookup_union_r by done.
    rewrite lookup_insert_eq.
    by destruct (context_isOpen context).
Qed.

End Trigger.

(** ** The popper *)

Section Popper.

Context (getPartDataAttrObj : string → gmap string AttrValue).

(** One close: the handler of the current render, on a new event. *)
Lemma closeAutoFocus_step props context w :
  dispatch (root_onCloseAutoFocus (DropdownMenuPopper getPartDataAttrObj props context w))
    CloseAutoFocus w =
  if skipCloseAutoFocus w
  then mkWorld (uncontrolledProp w) true (triggerRef_current w) (activeElement w)
               true (trace w ++ [PreventDefault]) (focusable w)
  else match triggerRef_current w with
       | Some el =>
           mkWorld (uncontrolledProp w) false (triggerRef_current w)
                   (if focusable w el then Some el else activeElement w)
                   false (trace w ++ [Focus el]) (focusable w)
       | None =>
           mkWorld (uncontrolledProp w) false (triggerRef_current w) (activeElement w)
                   false (trace w) (focusable w)
       end.
Proof.
  destruct w as [u s t a d tr fo]. simpl.
  destruct s; [by run|]. destruct t as [el|]; [|by run].
  do 2 run. by destruct (fo el).
Qed.

(** One outside pointer-down, in full. *)
Lemma pointerDownOutside_step props context w0 event w :
  exec (root_onPointerDownOutside
          (DropdownMenuPopper getPartDataAttrObj props context w0) event) w =
  let d := default true (disableOutsidePointerEvents props) in
  if bool_decide (target event = triggerRef_current w)
  then mkWorld (uncontrolledProp w) false (triggerRef_current w) (activeElement w) true
         (trace w ++ [SetSkipCloseAutoFocus (negb d); PreventDefault;
                      SetSkipCloseAutoFocus false]) (focusable w)
  else
    let prevented :=
      defaultPrevented w || from_option (λ h, h event) false (onInteractOutside props) in
    mkWorld (uncontrolledProp w) (negb d && negb prevented) (triggerRef_current w)
      (activeElement w) prevented
      (trace w ++ [SetSkipCloseAutoFocus (negb d)]
         ++ match onInteractOutside props with
            | Some _ => [Called OnInteractOutside]
            | None => []
            end
         ++ if prevented then [SetSkipCloseAutoFocus false] else []) (focusable w).
Proof.
  destruct w as [u s t a d tr fo]. simpl. run.
  destruct (bool_decide (target event = t)); simpl.
  - by rewrite <- !app_assoc.
  - destruct (onInteractOutside props) as [h|]; simpl.
    + destruct (h event), d; simpl; rewrite <- ?app_assoc; simpl;
        rewrite ?andb_false_r, ?andb_true_r, ?app_nil_r; done.
    + destruct d; simpl; rewrite <- ?app_assoc; simpl;
        rewrite ?andb_false_r, ?andb_true_r, ?app_nil_r; done.
Qed.

(** C2, on the code.  A close never writes the focus-skip flag.  With the
    flag set, a close prevents the default focus restoration and calls no
    [focus()], and so does every close after it, for as long as no outside
    pointer-down writes the flag again: the flag is not reset once the
    suppression has been applied.  With the flag clear, a close prevents
    nothing and calls [focus()] on the trigger element, which takes the
    focus when it can. *)
Theorem closeAutoFocus_keeps_flag props context w :
  let close w :=
    dispatch (root_onCloseAutoFocus (DropdownMenuPopper getPartDataAttrObj props context w))
      CloseAutoFocus w in
  skipCloseAutoFocus (close w) = skipCloseAutoFocus w
  ∧ (skipCloseAutoFocus w = true →
     ∀ n, skipCloseAutoFocus (Nat.iter n close w) = true
          ∧ activeElement (Nat.iter n close w) = activeElement w
          ∧ trace (Nat.iter n close w) = trace w ++ replicate n PreventDefault
          ∧ (0 < n → defaultPrevented (Nat.iter n close w) = true))
  ∧ (skipCloseAutoFocus w = false →
     defaultPrevented (close w) = false
     ∧ ∀ el, triggerRef_current w = Some el →
             trace (close w) = trace w ++ [Focus el]
             ∧ activeElement (close w) =
               if focusable w el then Some el else activeElement w).
Proof.
  intros close. split; [|split].
  - unfold close. rewrite closeAutoFocus_step.
    destruct (skipCloseAutoFocus w) eqn:Hs; [done|].
    by destruct (triggerRef_current w).
  - intros Hs n. induction n as [|n (IHs & IHa & IHt & IHd)].
    + simpl. rewrite app_nil_r. repeat split; [done|lia].
    + simpl. unfold close at 1 3 5 7. rewrite closeAutoFocus_step, IHs. simpl.
      repeat split; [done|].
      rewrite IHt, <- app_assoc. f_equal.
      change (replicate n PreventDefault ++ [PreventDefault] =
              replicate (S n) PreventDefault).
      by rewrite replicate_S_end.
  - intros Hs. unfold close. rewrite closeAutoFocus_step, Hs.
    split; [by destruct (triggerRef_current w)|].
    by intros el ->.
Qed.


(** C6, on the code.  On an outside pointer-down whose target is the trigger
    element, the popper's own handler prevents the default (the dismissal)
    and does not call the caller's [onInteractOutside].  But the same handler
    is also the [onInteractOutside] prop of the primitive, passed on without
    that guard: a primitive that calls the prop for this event, as for any
    other outside pointer-down, runs the caller's handler once. *)
Theorem popper_trigger_pointerDown_prevented props context w0 h event w :
  onInteractOutside props = Some h →
  target event = triggerRef_current w →
  let root := DropdownMenuPopper getPartDataAttrObj props context w0 in
  let w' := exec (root_onPointerDownOutside root event) w in
  defaultPrevented w' = true
  ∧ PreventDefault ∈ trace w'
  ∧ calls OnInteractOutside (trace w') = calls OnInteractOutside (trace w)
  ∧ root_onInteractOutside root = Some (call OnInteractOutside h)
  ∧ calls OnInteractOutside
      (trace (exec (call_opt (root_onInteractOutside root) event) w'))
    = S (calls OnInteractOutside (trace w)).
Proof.
  intros Hh Ht root w'.
  assert (w' =
          mkWorld (uncontrolledProp w) false (triggerRef_current w) (activeElement w)
            true
            (trace w
               ++ [SetSkipCloseAutoFocus
                     (negb (default true (disableOutsidePointerEvents props)));
                   PreventDefault; SetSkipCloseAutoFocus false])
            (focusable w)) as Hw.
  { subst w' root. rewrite pointerDownOutside_step. simpl.
    by rewrite bool_decide_eq_true_2. }
  assert (root_onInteractOutside root = Some (call OnInteractOutside h)) as Hf.
  { subst root. simpl. by rewrite Hh. }
  split; [by rewrite Hw|]. split.
  { rewrite Hw. simpl. rewrite elem_of_app. right. rewrite !elem_of_cons. tauto. }
  split.
  { rewrite Hw. simpl. rewrite calls_app. simpl. lia. }
  split; [done|].
  rewrite Hf, Hw. simpl. run.
  destruct (h event); simpl; rewrite !calls_app; simpl; lia.
Qed.

(** C7.  On every outside pointer-down the handler first writes the
    focus-skip flag to the negation of [disableOutsidePointerEvents] (true
    exactly when that configuration is false), and writes it to false after
    that exactly when the event ends up default-prevented; so when the
    handler returns the flag is set if and only if the configuration is
    false and the event is not default-prevented. *)
Theorem popper_pointerDown_skip_flag props context w0 event w :
  let d := default true (disableOutsidePointerEvents props) in
  let w' :=
    exec (root_onPointerDownOutside
            (DropdownMenuPopper getPartDataAttrObj props context w0) event) w in
  flagWrites (trace w') =
    flagWrites (trace w) ++ negb d :: (if defaultPrevented w' then [false] else [])
  ∧ skipCloseAutoFocus w' = negb d && negb (defaultPrevented w').
Proof.
  intros d w'. subst w'. rewrite pointerDownOutside_step. simpl.
  destruct (bool_decide (target event = triggerRef_current w)); simpl.
  - rewrite flagWrites_app. split; [done|]. by rewrite andb_false_r.
  - rewrite !flagWrites_app. simpl. split; [|done]. f_equal. f_equal.
    destruct (onInteractOutside props); simpl;
      by destruct (defaultPrevented w || _).
Qed.

End Popper.

(** ** The root and what hangs off its context *)

Section Root.

Context (getPartDataAttrObj : string → gmap string AttrValue).

(** C3.  For a controlled root (the caller passes [isOpen] and
    [onIsOpenChange]), any write through the context's setter, whether a
    value or an updater such as the trigger's toggle, leaves the local state
    as it was and calls [onIsOpenChange] once, with the value the write
    proposes (for the toggle, the negation of the prop).  The open state of
    the next render is the prop of that render: unchanged when the caller
    passes the same prop again, and the new value when the caller passes that
    one. *)
Theorem controlled_writes_are_forwarded gen i p d cb action w :
  let props (p : bool) :=
    {| idProp := i; isOpenProp := Some p; defaultIsOpen := d;
       onIsOpenChange := Some cb |} in
  let context := DropdownMenu (props p) gen w in
  let w' := exec (context_setIsOpen context action) w in
  context_isOpen context = p
  ∧ uncontrolledProp w' = uncontrolledProp w
  ∧ trace w' = trace w ++ [Notified (resolve action (Some p))]
  ∧ resolve (Updater (λ prevOpen, Some (js_not prevOpen))) (Some p) = Some (negb p)
  ∧ context_isOpen (DropdownMenu (props p) gen w') = p
  ∧ ∀ p', context_isOpen (DropdownMenu (props p') gen w') = p'.
Proof.
  intros props context w'. subst w' context.
  rewrite (setIsOpen_controlled (props p) gen w action w p eq_refl).
  by repeat split.
Qed.

(** C10, as amended.  For a non-empty id passed to the root, the id of the
    context and the [id] prop of the surface are that string; and while the
    menu is open the trigger's aria-controls is that string too, provided the
    caller passes no aria-controls prop of their own to the trigger. *)
Theorem explicit_id_round_trip s isOpen defaultIsOpen onIsOpenChange gen
    props popperProps w :
  s ≠ "" →
  let context :=
    DropdownMenu {| idProp := Some s; isOpenProp := isOpen;
                    defaultIsOpen := defaultIsOpen;
                    onIsOpenChange := onIsOpenChange |} gen w in
  context_id context = s
  ∧ root_attrs (DropdownMenuPopper getPartDataAttrObj popperProps context w) !! "id"
    = Some (AString s)
  ∧ (context_isOpen context = true →
     attrs (triggerProps props) !! "aria-controls" = None →
     el_attrs (DropdownMenuTrigger getPartDataAttrObj props context)
       !! "aria-controls" = Some (AString s)).
Proof.
  intros Hs context.
  assert (context_id context = s) as Hid.
  { subst context. unfold DropdownMenu. simpl.
    destruct (useControlledState _ w) as [v set]. simpl.
    by destruct s. }
  split; [done|]. split.
  - simpl. by rewrite lookup_insert_eq, Hid.
  - intros Hopen Hown. rewrite trigger_attrs, lookup_union_r by done.
    by rewrite lookup_insert_eq, Hopen, Hid.
Qed.

End Root.

(** ** The component at work on the examples *)

(** C1, as stated, fails.  A press of button 0 with shift held and the
    control key up is a mouse-down with a modifier key held, and it opens the
    closed menu: the handler looks at [ctrlKey] alone. *)
Lemma shift_mouseDown_toggles :
  modifierHeld Example.shiftLeftButton = true
  ∧ context_isOpen (DropdownMenu Example.uncontrolled "1" Example.closed) = false
  ∧ context_isOpen
      (DropdownMenu Example.uncontrolled "1"
         (Example.afterMouseDown Example.plainTrigger Example.shiftLeftButton)) = true.
Proof. by vm_compute. Qed.

(** C1, as amended, at work: the left button opens the closed menu, the right
    button leaves it closed. *)
Lemma trigger_mouseDown_toggles_witness :
  context_isOpen
    (DropdownMenu Example.uncontrolled "1"
       (Example.afterMouseDown Example.plainTrigger Example.leftButton)) = true
  ∧ context_isOpen
      (DropdownMenu Example.uncontrolled "1"
         (Example.afterMouseDown Example.plainTrigger Example.rightButton)) = false.
Proof.
  split.
  - apply (proj1 (trigger_mouseDown_toggles Example.getPartDataAttrObj
                    Example.plainTrigger Example.uncontrolled "1"
                    Example.leftButton Example.closed)); reflexivity.
  - apply (proj2 (trigger_mouseDown_toggles Example.getPartDataAttrObj
                    Example.plainTrigger Example.uncontrolled "1"
                    Example.rightButton Example.closed)).
    left. discriminate.
Defined.

(** C2, on the code, at work.  A click on the page closes the open menu with
    the restoration suppressed; the trigger opens it again; Escape dismisses
    it.  The flag is still set from the click, so the close after the Escape
    is suppressed too and the focus is not given back to the trigger.  With
    the flag clear, a close puts the focus on the trigger, a button. *)
Lemma closeAutoFocus_keeps_flag_witness :
  turns Example.getPartDataAttrObj Scenario.button
    (Scenario.clickOutside ++ Scenario.reopenAndEscape) Example.opened
  = Scenario.afterEscape
  ∧ skipCloseAutoFocus Scenario.afterEscape = true
  ∧ trace (turn Example.getPartDataAttrObj Scenario.button CloseAutoFocusOf
             Scenario.afterEscape)
    = trace Scenario.afterEscape ++ [PreventDefault]
  ∧ activeElement (turn Example.getPartDataAttrObj Scenario.button CloseAutoFocusOf
                     Scenario.afterEscape) = Some 5
  ∧ activeElement (Example.closeAutoFocus Example.opened) = Some 1.
Proof.
  pose proof (proj1 (proj2 (closeAutoFocus_keeps_flag Example.getPartDataAttrObj
                Example.popper (DropdownMenu Example.named "1" Example.opened)
                Scenario.afterEscape)) eq_refl 1) as (_ & Ha & Ht & _).
  pose proof (proj2 (proj2 (proj2 (closeAutoFocus_keeps_flag Example.getPartDataAttrObj
                Example.popper (DropdownMenu Example.named "1" Example.opened)
                Example.opened)) eq_refl) 1 eq_refl) as Hf.
  split; [vm_compute; reflexivity|]. split; [reflexivity|].
  split; [exact Ht|]. split; [exact Ha|]. exact (proj2 Hf).
Defined.


(** C6, on the code, at work: a pointer-down on the trigger, element 1.  The
    popper's own handler does not call the caller's handler; the prop the
    primitive is given does. *)
Lemma popper_trigger_pointerDown_prevented_witness :
  defaultPrevented (Example.pointerDownOutside {| target := Some 1 |} Example.opened)
  = true
  ∧ calls OnInteractOutside
      (trace (Example.pointerDownOutside {| target := Some 1 |} Example.opened)) = 0
  ∧ calls OnInteractOutside
      (trace
         (exec
            (call_opt
               (root_onInteractOutside
                  (DropdownMenuPopper Example.getPartDataAttrObj Example.popper
                     (DropdownMenu Example.named "1" Example.opened) Example.opened))
               {| target := Some 1 |})
            (Example.pointerDownOutside {| target := Some 1 |} Example.opened))) = 1.
Proof.
  pose proof (popper_trigger_pointerDown_prevented Example.getPartDataAttrObj
                Example.popper (DropdownMenu Example.named "1" Example.opened)
                Example.opened (λ _, false) {| target := Some 1 |} Example.opened
                eq_refl eq_refl)
    as (H1 & _ & H2 & _ & H3).
  split; [exact H1|]. split; [exact H2 | exact H3].
Defined.

(** C8, as stated, fails.  Space on the trigger of a closed menu, where the
    caller's [onKeyDown] prevents the default: the caller's handler runs, the
    component's own does not, and the menu is still closed. *)
Lemma prevented_space_stays_closed :
  opensMenu Example.space = true
  ∧ context_isOpen (DropdownMenu Example.uncontrolled "1" Example.closed) = false
  ∧ context_isOpen
      (DropdownMenu Example.uncontrolled "1"
         (Example.afterKeyDown Example.preventingTrigger Example.space)) = false
  ∧ trace (Example.afterKeyDown Example.preventingTrigger Example.space)
    = [Called OnKeyDown].
Proof. by vm_compute. Qed.

(** C8, as amended, at work: Space opens the closed menu, and does not when
    the caller's handler prevents the default. *)
Lemma trigger_keyDown_opens_witness :
  context_isOpen
    (DropdownMenu Example.uncontrolled "1"
       (Example.afterKeyDown Example.plainTrigger Example.space)) = true
  ∧ context_isOpen
      (DropdownMenu Example.uncontrolled "1"
         (Example.afterKeyDown Example.preventingTrigger Example.space)) = false.
Proof.
  split.
  - apply (proj1 (trigger_keyDown_opens Example.getPartDataAttrObj
                    Example.plainTrigger Example.uncontrolled "1" Example.space
                    Example.closed eq_refl) eq_refl).
  - apply (proj2 (trigger_keyDown_opens Example.getPartDataAttrObj
                    Example.preventingTrigger Example.uncontrolled "1" Example.space
                    Example.closed eq_refl) eq_refl).
Defined.

(** C9, as stated, fails.  A trigger that is passed aria-haspopup="listbox"
    and aria-expanded={false} renders those: aria-haspopup is not "menu", and
    aria-expanded is present while the menu is closed. *)
Lemma caller_aria_props_win :
  context_isOpen (DropdownMenu Example.uncontrolled "1" Example.closed) = false
  ∧ rendered
      (el_attrs (DropdownMenuTrigger Example.getPartDataAttrObj Example.listboxTrigger
                   (DropdownMenu Example.uncontrolled "1" Example.closed))
         !! "aria-haspopup") = Some (AString "listbox")
  ∧ rendered
      (el_attrs (DropdownMenuTrigger Example.getPartDataAttrObj Example.listboxTrigger
                   (DropdownMenu Example.uncontrolled "1" Example.closed))
         !! "aria-expanded") = Some (ABool false).
Proof. by vm_compute. Qed.

(** C9, as amended, at work: the three attributes of a plain trigger while
    the menu is open, and the caller's aria-haspopup where there is one. *)
Lemma trigger_aria_attributes_witness :
  rendered
    (el_attrs (DropdownMenuTrigger Example.getPartDataAttrObj Example.plainTrigger
                 (DropdownMenu Example.named "1" Example.opened))
       !! "aria-haspopup") = Some (AString "menu")
  ∧ rendered
      (el_attrs (DropdownMenuTrigger Example.getPartDataAttrObj Example.plainTrigger
                   (DropdownMenu Example.named "1" Example.opened))
         !! "aria-expanded") = Some (ABool true)
  ∧ rendered
      (el_attrs (DropdownMenuTrigger Example.getPartDataAttrObj Example.plainTrigger
                   (DropdownMenu Example.named "1" Example.opened))
         !! "aria-controls") = Some (AString "menu-1")
  ∧ el_attrs (DropdownMenuTrigger Example.getPartDataAttrObj Example.listboxTrigger
                (DropdownMenu Example.named "1" Example.opened))
      !! "aria-haspopup" = Some (AString "listbox").
Proof.
  pose proof (trigger_aria_attributes Example.getPartDataAttrObj Example.plainTrigger
                (DropdownMenu Example.named "1" Example.opened)) as (_ & H1 & H2 & H3).
  pose proof (trigger_aria_attributes Example.getPartDataAttrObj Example.listboxTrigger
                (DropdownMenu Example.named "1" Example.opened)) as (H0 & _).
  split; [exact (H1 eq_refl)|]. split; [exact (H2 eq_refl)|].
  split; [exact (H3 eq_refl)|]. apply H0. reflexivity.
Defined.

(** C10, as stated, fails.  The root is given the id "menu-1" and the menu is
    open; the surface gets that id, but a trigger that is passed
    aria-controls="sidebar" renders "sidebar". *)
Lemma caller_aria_controls_wins :
  context_isOpen (DropdownMenu Example.named "1" Example.opened) = true
  ∧ root_attrs (DropdownMenuPopper Example.getPartDataAttrObj Example.popper
                  (DropdownMenu Example.named "1" Example.opened) Example.opened)
      !! "id" = Some (AString "menu-1")
  ∧ rendered
      (el_attrs (DropdownMenuTrigger Example.getPartDataAttrObj Example.sidebarTrigger
                   (DropdownMenu Example.named "1" Example.opened))
         !! "aria-controls") = Some (AString "sidebar").
Proof. by vm_compute. Qed.

(** C10, as amended, at work: the id "menu-1" on the surface and on a plain
    trigger. *)
Lemma explicit_id_round_trip_witness :
  context_id (DropdownMenu Example.named "1" Example.opened) = "menu-1"
  ∧ root_attrs (DropdownMenuPopper Example.getPartDataAttrObj Example.popper
                  (DropdownMenu Example.named "1" Example.opened) Example.opened)
      !! "id" = Some (AString "menu-1")
  ∧ el_attrs (DropdownMenuTrigger Example.getPartDataAttrObj Example.plainTrigger
                (DropdownMenu Example.named "1" Example.opened))
      !! "aria-controls" = Some (AString "menu-1").
Proof.
  pose proof (explicit_id_round_trip Example.getPartDataAttrObj "menu-1" None (Some true)
                None "1" Example.plainTrigger Example.popper Example.opened
                ltac:(discriminate)) as (H1 & H2 & H3).
  split; [exact H1|]. split; [exact H2|]. exact (H3 eq_refl eq_refl).
Defined.

(** * More of the component *)

(** ** One turn, in full *)

Lemma preventions_app t1 t2 :
  preventions (t1 ++ t2) = preventions t1 + preventions t2.
Proof.
  induction t1 as [|x t1 IH]; [done|].
  destruct x; simpl; by rewrite IH.
Qed.

Section Steps.
Context (getPartDataAttrObj : string → gmap string AttrValue).

(** A mouse-down on the trigger, in full, for either mode of the root. *)
Lemma mouseDown_step m event w :
  turn getPartDataAttrObj m (MouseDownOnTrigger event) w =
  let h := onMouseDown (triggerProps (m_trigger m)) in
  let toggles :=
    negb (prevents h event) && Z.eqb (button event) 0 && Bool.eqb (ctrlKey event) false in
  mkWorld
    (match isOpenProp (m_root m) with
     | None => if toggles then Some (js_not (uncontrolledProp w)) else uncontrolledProp w
     | Some _ => uncontrolledProp w
     end)
    (skipCloseAutoFocus w) (triggerRef_current w) (activeElement w)
    (prevents h event)
    (trace w
       ++ match h with Some _ => [Called OnMouseDown] | None => [] end
       ++ match isOpenProp (m_root m), onIsOpenChange (m_root m) with
          | Some p, Some _ => if toggles then [Notified (Some (negb p))] else []
          | _, _ => []
          end) (focusable w).
Proof.
  unfold turn. rewrite mouseDown_trigger.
  destruct m as [[i o d cb] gen [a oc [md kd ats]] pp], w as [u s t ac dp tr fo]; simpl.
  unfold DropdownMenu, useControlledState; simpl.
  destruct o as [p|], cb as [cb|], md as [h|]; simpl; do 2 run;
    try destruct (h event); simpl;
    destruct (Z.eqb (button event) 0), (Bool.eqb (ctrlKey event) false); simpl;
    rewrite <- ?app_assoc, ?app_nil_r; done.
Qed.

(** A key-down on the trigger, in full. *)
Lemma keyDown_step m event w :
  turn getPartDataAttrObj m (KeyDownOnTrigger event) w =
  let h := onKeyDown (triggerProps (m_trigger m)) in
  let opens := negb (prevents h event) && opensMenu event in
  mkWorld
    (match isOpenProp (m_root m) with
     | None => if opens then Some true else uncontrolledProp w
     | Some _ => uncontrolledProp w
     end)
    (skipCloseAutoFocus w) (triggerRef_current w) (activeElement w)
    (prevents h event || opens)
    (trace w
       ++ match h with Some _ => [Called OnKeyDown] | None => [] end
       ++ (if opens then [PreventDefault] else [])
       ++ match isOpenProp (m_root m), onIsOpenChange (m_root m) with
          | Some p, Some _ => if opens then [Notified (Some true)] else []
          | _, _ => []
          end) (focusable w).
Proof.
  unfold turn. rewrite keyDown_trigger, opensMenu_eqb.
  destruct m as [[i o d cb] gen [a oc [md kd ats]] pp], w as [u s t ac dp tr fo]; simpl.
  unfold DropdownMenu, useControlledState; simpl.
  destruct o as [p|], cb as [cb|], kd as [h|]; simpl; do 2 run;
    try destruct (h event); simpl;
    destruct (String.eqb (key event) " " || String.eqb (key event) "ArrowUp"
              || String.eqb (key event) "ArrowDown"); simpl;
    rewrite <- ?app_assoc, ?app_nil_r; done.
Qed.

(** A write of a boolean through the context, on a new event. *)
Lemma setIsOpen_step m (b : bool) w :
  dispatch (context_setIsOpen (DropdownMenu (m_root m) (m_generatedId m) w))
    (NextValue (Some b)) w =
  mkWorld
    (match isOpenProp (m_root m) with
     | None => Some b
     | Some _ => uncontrolledProp w
     end)
    (skipCloseAutoFocus w) (triggerRef_current w) (activeElement w) false
    (trace w
       ++ match isOpenProp (m_root m), onIsOpenChange (m_root m) with
          | Some p, Some _ => [Notified (Some b)]
          | _, _ => []
          end) (focusable w).
Proof.
  destruct m as [[i o d cb] gen tp pp], w as [u s t ac dp tr fo]; simpl.
  unfold DropdownMenu, useControlledState; simpl.
  destruct o as [p|], cb as [cb|]; simpl; do 2 run; rewrite ?app_nil_r; done.
Qed.

(** An outside pointer-down, in full. *)
Lemma pointerDown_turn m event w :
  turn getPartDataAttrObj m (PointerDownOutside event) w =
  let d := default true (disableOutsidePointerEvents (m_popper m)) in
  let h := onInteractOutside (m_popper m) in
  if bool_decide (target event = triggerRef_current w)
  then mkWorld (uncontrolledProp w) false (triggerRef_current w) (activeElement w) true
         (trace w ++ [SetSkipCloseAutoFocus (negb d); PreventDefault;
                      SetSkipCloseAutoFocus false]) (focusable w)
  else
    mkWorld (uncontrolledProp w) (negb d && negb (prevents h event))
      (triggerRef_current w) (activeElement w) (prevents h event)
      (trace w ++ [SetSkipCloseAutoFocus (negb d)]
         ++ match h with Some _ => [Called OnInteractOutside] | None => [] end
         ++ if prevents h event then [SetSkipCloseAutoFocus false] else []) (focusable w).
Proof.
  unfold turn, dispatch. rewrite pointerDownOutside_step.
  by destruct w.
Qed.

End Steps.

Section Turns.
Context (getPartDataAttrObj : string → gmap string AttrValue).

Lemma dismiss_step m w :
  turn getPartDataAttrObj m Dismiss w =
  dispatch (context_setIsOpen (DropdownMenu (m_root m) (m_generatedId m) w))
    (NextValue (Some false)) w.
Proof. reflexivity. Qed.

Lemma isOpenChange_step m b w :
  turn getPartDataAttrObj m (IsOpenChange b) w =
  dispatch (context_setIsOpen (DropdownMenu (m_root m) (m_generatedId m) w))
    (NextValue (Some b)) w.
Proof. reflexivity. Qed.

(** A close, in full. *)
Lemma close_step m w :
  turn getPartDataAttrObj m CloseAutoFocusOf w =
  if skipCloseAutoFocus w
  then mkWorld (uncontrolledProp w) true (triggerRef_current w) (activeElement w)
               true (trace w ++ [PreventDefault]) (focusable w)
  else match triggerRef_current w with
       | Some el =>
           mkWorld (uncontrolledProp w) false (triggerRef_current w)
                   (if focusable w el then Some el else activeElement w)
                   false (trace w ++ [Focus el]) (focusable w)
       | None =>
           mkWorld (uncontrolledProp w) false (triggerRef_current w) (activeElement w)
                   false (trace w) (focusable w)
       end.
Proof. unfold turn. apply closeAutoFocus_step. Qed.

Lemma toggles_eqb (event : MouseEvent) b :
  b && Z.eqb (button event) 0 && Bool.eqb (ctrlKey event) false =
  b && bool_decide (button event = 0%Z) && negb (ctrlKey event).
Proof.
  destruct (Z.eqb_spec (button event) 0) as [H|H].
  - rewrite bool_decide_eq_true_2 by done. by destruct (ctrlKey event).
  - rewrite bool_decide_eq_false_2 by done. by destruct (ctrlKey event).
Qed.

(** The open state of an uncontrolled root one turn later. *)
Lemma isOpen_turn m input w :
  isOpenProp (m_root m) = None →
  context_isOpen (DropdownMenu (m_root m) (m_generatedId m)
                    (turn getPartDataAttrObj m input w)) =
  nextOpen (m_trigger m)
    (context_isOpen (DropdownMenu (m_root m) (m_generatedId m) w)) input.
Proof.
  intros Hu. rewrite !isOpen_uncontrolled by done.
  destruct input as [event|event|event| | |b].
  - rewrite mouseDown_step. simpl. rewrite Hu, toggles_eqb.
    destruct (negb _ && _ && _); [|done].
    by destruct (uncontrolledProp w) as [[]|].
  - rewrite keyDown_step. simpl. rewrite Hu.
    by destruct (negb _ && _).
  - rewrite pointerDown_turn. simpl. by destruct (bool_decide _).
  - rewrite close_step. simpl. destruct (skipCloseAutoFocus w); [done|].
    by destruct (triggerRef_current w).
  - rewrite dismiss_step, setIsOpen_step. simpl. by rewrite Hu.
  - rewrite isOpenChange_step, setIsOpen_step. simpl. by rewrite Hu.
Qed.

Lemma isOpen_turns m inputs w :
  isOpenProp (m_root m) = None →
  context_isOpen (DropdownMenu (m_root m) (m_generatedId m)
                    (turns getPartDataAttrObj m inputs w)) =
  fold_left (nextOpen (m_trigger m)) inputs
    (context_isOpen (DropdownMenu (m_root m) (m_generatedId m) w)).
Proof.
  intros Hu. revert w. induction inputs as [|input inputs IH]; intros w; [done|].
  change (turns getPartDataAttrObj m (input :: inputs) w)
    with (turns getPartDataAttrObj m inputs (turn getPartDataAttrObj m input w)).
  by rewrite IH, isOpen_turn.
Qed.

(** X1.  For an uncontrolled root, the open state after any sequence of
    inputs is the one a user would count out: each left press without the
    control key flips it, each opening key opens it, a dismissal closes it,
    the primitive's [onIsOpenChange] sets it, and an event whose default the
    caller's handler prevents, like an outside pointer-down or a close, leaves
    it.  The popper's [isOpen] and, where the caller passes none, the
    trigger's aria-expanded show that state. *)
Theorem uncontrolled_open_state_follows_inputs m inputs w :
  isOpenProp (m_root m) = None →
  let after := turns getPartDataAttrObj m inputs w in
  let context := DropdownMenu (m_root m) (m_generatedId m) after in
  let expected :=
    fold_left (nextOpen (m_trigger m)) inputs
      (context_isOpen (DropdownMenu (m_root m) (m_generatedId m) w)) in
  context_isOpen context = expected
  ∧ root_isOpen (DropdownMenuPopper getPartDataAttrObj (m_popper m) context after)
    = expected
  ∧ (attrs (triggerProps (m_trigger m)) !! "aria-expanded" = None →
     rendered (el_attrs (DropdownMenuTrigger getPartDataAttrObj (m_trigger m) context)
                 !! "aria-expanded")
     = if expected then Some (ABool true) else None).
Proof.
  intros Hu after context expected.
  assert (context_isOpen context = expected) as Hc by by apply isOpen_turns.
  split; [done|]. split; [done|].
  intros Hown. rewrite trigger_attrs, lookup_union_r by done.
  rewrite lookup_insert_ne by done. rewrite lookup_insert_eq, Hc.
  by destruct expected.
Qed.

(** X2.  A key-down of any key other than Space, ArrowUp and ArrowDown (Enter,
    Escape, a letter) is left to the caller and the browser: the component
    does not prevent its default and does not write the open state. *)
Theorem other_keys_are_left_alone m event w :
  opensMenu event = false →
  let w' := turn getPartDataAttrObj m (KeyDownOnTrigger event) w in
  preventions (trace w') = preventions (trace w)
  ∧ defaultPrevented w' = prevents (onKeyDown (triggerProps (m_trigger m))) event
  ∧ uncontrolledProp w' = uncontrolledProp w
  ∧ notifications (trace w') = notifications (trace w)
  ∧ context_isOpen (DropdownMenu (m_root m) (m_generatedId m) w')
    = context_isOpen (DropdownMenu (m_root m) (m_generatedId m) w).
Proof.
  intros Hk w'. subst w'. rewrite keyDown_step. simpl. rewrite Hk, andb_false_r.
  assert (∀ (x : option bool) (y : option (bool → unit)),
            match x, y with Some _, Some _ => @nil Effect | _, _ => [] end = [])
    as Hnil by (by intros [?|] [?|]).
  rewrite Hnil, !app_nil_r, orb_false_r.
  assert (∀ (h : option (EventHandler KeyboardEvent)) t,
            preventions (t ++ match h with Some _ => [Called OnKeyDown] | None => [] end)
            = preventions t
            ∧ notifications (t ++ match h with Some _ => [Called OnKeyDown] | None => [] end)
              = notifications t) as Hframe.
  { intros [h|] t; rewrite ?app_nil_r, ?preventions_app, ?notifications_app; simpl;
      rewrite ?app_nil_r; split; (done || lia). }
  destruct (Hframe (onKeyDown (triggerProps (m_trigger m))) (trace w)) as [-> ->].
  repeat split; by destruct (isOpenProp (m_root m)).
Qed.

(** X3.  The component never prevents the default of a mouse-down on the
    trigger, whatever the button and whether or not it toggles: the event is
    default-prevented afterwards exactly when the caller's handler prevented
    it.  The mouse-down touches neither the focus-skip flag, nor the trigger
    ref, nor the focus. *)
Theorem mouseDown_never_prevents_default m event w :
  let w' := turn getPartDataAttrObj m (MouseDownOnTrigger event) w in
  preventions (trace w') = preventions (trace w)
  ∧ defaultPrevented w' = prevents (onMouseDown (triggerProps (m_trigger m))) event
  ∧ skipCloseAutoFocus w' = skipCloseAutoFocus w
  ∧ triggerRef_current w' = triggerRef_current w
  ∧ activeElement w' = activeElement w.
Proof.
  intros w'. subst w'. rewrite mouseDown_step. simpl.
  repeat split.
  rewrite !preventions_app.
  destruct (onMouseDown (triggerProps (m_trigger m))) as [h|],
    (isOpenProp (m_root m)) as [p|], (onIsOpenChange (m_root m)) as [cb|];
    simpl; try destruct (_ && _); simpl; lia.
Qed.

End Turns.

Section Surface.
Context (getPartDataAttrObj : string → gmap string AttrValue).

(** X4.  The trigger renders as the element [as] names, a button by
    default.  Each of its attribute props is the caller's where the caller
    passes one of that name; otherwise the component's own for
    aria-controls, aria-expanded, aria-haspopup and type (type is "button"
    whatever the element); and otherwise the data attribute of the part. *)
Theorem trigger_attribute_precedence props context name :
  let el := DropdownMenuTrigger getPartDataAttrObj props context in
  el_tag el = default "button" (as_ props)
  ∧ el_attrs el !! name =
    match attrs (triggerProps props) !! name with
    | Some v => Some v
    | None =>
        if decide (name = "aria-controls")
        then Some (if context_isOpen context then AString (context_id context)
                   else AUndefined)
        else if decide (name = "aria-expanded")
        then Some (if context_isOpen context then ABool true else AUndefined)
        else if decide (name = "aria-haspopup") then Some (AString "menu")
        else if decide (name = "type") then Some (AString "button")
        else getPartDataAttrObj "DropdownMenuTrigger" !! name
    end.
Proof.
  intros el. split; [done|]. subst el. rewrite trigger_attrs.
  destruct (attrs (triggerProps props) !! name) as [v|] eqn:Hown.
  { by apply lookup_union_Some_l. }
  rewrite lookup_union_r by done.
  repeat (case_decide; [subst name; rewrite ?lookup_insert_ne by done;
                        by rewrite lookup_insert_eq|]).
  rewrite !lookup_insert_ne by done.
  rewrite lookup_union_l; [done|apply lookup_empty].
Qed.



(** X6.  The style of the popper is the caller's style with the custom
    property --radix-dropdown-menu-popper-transform-origin set to the
    popper's transform origin: the caller's other properties are kept, and a
    value of the caller's for that property is replaced. *)
Theorem popper_style_keeps_transform_origin props context w name :
  root_style (DropdownMenuPopper getPartDataAttrObj props context w) !! name =
  if decide (name = "--radix-dropdown-menu-popper-transform-origin")
  then Some "var(--radix-popper-transform-origin)"
  else match style (popperProps props) with
       | Some style => style !! name
       | None => None
       end.
Proof.
  simpl. case_decide as Hn.
  - subst name. by rewrite lookup_insert_eq.
  - rewrite lookup_insert_ne by done. by destruct (style (popperProps props)).
Qed.

(** No turn moves the trigger ref or changes which elements can take the
    focus, and only an outside pointer-down writes the focus-skip flag. *)
Lemma turn_frame m input w :
  triggerRef_current (turn getPartDataAttrObj m input w) = triggerRef_current w
  ∧ focusable (turn getPartDataAttrObj m input w) = focusable w
  ∧ ((∀ event, input ≠ PointerDownOutside event) →
     skipCloseAutoFocus (turn getPartDataAttrObj m input w) = skipCloseAutoFocus w).
Proof.
  destruct input as [event|event|event| | |b].
  - by rewrite mouseDown_step.
  - by rewrite keyDown_step.
  - rewrite pointerDown_turn. simpl. split; [|split].
    + by destruct (bool_decide _).
    + by destruct (bool_decide _).
    + intros H. by destruct (H event).
  - rewrite close_step. destruct (skipCloseAutoFocus w) eqn:Hs; [done|].
    by destruct (triggerRef_current w).
  - by rewrite dismiss_step, setIsOpen_step.
  - by rewrite isOpenChange_step, setIsOpen_step.
Qed.

Lemma modal_turn_keeps_flag_clear m input w :
  default true (disableOutsidePointerEvents (m_popper m)) = true →
  skipCloseAutoFocus w = false →
  skipCloseAutoFocus (turn getPartDataAttrObj m input w) = false.
Proof.
  intros Hd Hs.
  destruct input as [event|event|event| | |b].
  3: { rewrite pointerDown_turn. simpl. rewrite Hd. by destruct (bool_decide _). }
  all: match goal with
       | |- context [turn _ ?m0 ?input ?w0] =>
           destruct (turn_frame m0 input w0) as (_ & _ & H); rewrite H; done
       end.
Qed.

(** X7.  With [disableOutsidePointerEvents] left out or true, the focus-skip
    flag never gets set: after any sequence of inputs, outside pointer-downs
    included, a close prevents nothing and calls [focus()] on the trigger
    element, which becomes the active element if it can take the focus; if
    it cannot, the focus stays where it was. *)
Theorem modal_popper_always_restores_focus m inputs w el :
  default true (disableOutsidePointerEvents (m_popper m)) = true →
  skipCloseAutoFocus w = false →
  triggerRef_current w = Some el →
  let before := turns getPartDataAttrObj m inputs w in
  let after := turn getPartDataAttrObj m CloseAutoFocusOf before in
  skipCloseAutoFocus before = false
  ∧ defaultPrevented after = false
  ∧ trace after = trace before ++ [Focus el]
  ∧ activeElement after = if focusable w el then Some el else activeElement before.
Proof.
  intros Hd Hs Ht before after.
  assert (skipCloseAutoFocus before = false ∧ triggerRef_current before = Some el
          ∧ focusable before = focusable w) as (Hs' & Ht' & Hf').
  { subst before. clear after.
    assert (∀ w0, skipCloseAutoFocus w0 = false → triggerRef_current w0 = Some el →
                  focusable w0 = focusable w →
                  skipCloseAutoFocus (turns getPartDataAttrObj m inputs w0) = false
                  ∧ triggerRef_current (turns getPartDataAttrObj m inputs w0) = Some el
                  ∧ focusable (turns getPartDataAttrObj m inputs w0) = focusable w)
      as Hall; [|by apply Hall].
    induction inputs as [|input inputs IH]; intros w0 Hs0 Ht0 Hf0; [done|].
    change (turns getPartDataAttrObj m (input :: inputs) w0)
      with (turns getPartDataAttrObj m inputs (turn getPartDataAttrObj m input w0)).
    destruct (turn_frame m input w0) as (Hr & Hf & _).
    apply IH.
    - by apply modal_turn_keeps_flag_clear.
    - by rewrite Hr.
    - by rewrite Hf. }
  subst after. rewrite close_step, Hs', Ht'. simpl. by rewrite Hf'.
Qed.

(** X8.  With [disableOutsidePointerEvents] false, the close that follows an
    outside pointer-down depends on that pointer-down alone, not on what the
    flag was before.  After a pointer-down away from the trigger that the
    caller's handler did not prevent, the close prevents the default, calls
    no [focus()] and leaves the focus where it is; after a pointer-down on
    the trigger, or one the caller's handler prevented, the close prevents
    nothing and calls [focus()] on the trigger, which becomes the active
    element if it can take the focus. *)
Theorem nonmodal_pointerDown_then_close m event w :
  disableOutsidePointerEvents (m_popper m) = Some false →
  let w1 := turn getPartDataAttrObj m (PointerDownOutside event) w in
  let w2 := turn getPartDataAttrObj m CloseAutoFocusOf w1 in
  (target event ≠ triggerRef_current w →
   prevents (onInteractOutside (m_popper m)) event = false →
   defaultPrevented w2 = true
   ∧ activeElement w2 = activeElement w
   ∧ trace w2 = trace w1 ++ [PreventDefault])
  ∧ (target event = triggerRef_current w
     ∨ prevents (onInteractOutside (m_popper m)) event = true →
     ∀ el, triggerRef_current w = Some el →
           defaultPrevented w2 = false
           ∧ trace w2 = trace w1 ++ [Focus el]
           ∧ activeElement w2 = if focusable w el then Some el else activeElement w).
Proof.
  intros Hd w1 w2. subst w2.
  rewrite close_step. subst w1. rewrite pointerDown_turn. simpl. rewrite Hd. simpl.
  split.
  - intros Hne Hp. rewrite bool_decide_eq_false_2 by done. rewrite Hp. done.
  - intros Hor el Hel.
    destruct (bool_decide (target event = triggerRef_current w)) eqn:Hb; simpl.
    + by rewrite Hel.
    + destruct Hor as [Heq|Hp].
      * by apply bool_decide_eq_false in Hb.
      * rewrite Hp. simpl. by rewrite Hel.
Qed.

(** X9.  The popper's handler for an outside pointer-down never closes the
    menu and never moves the focus: the open state, the calls of
    [onIsOpenChange], the focused element and the trigger ref are as before.
    Closing is left to [onDismiss]. *)
Theorem pointerDown_outside_leaves_open_state_and_focus m event w :
  let w' := turn getPartDataAttrObj m (PointerDownOutside event) w in
  uncontrolledProp w' = uncontrolledProp w
  ∧ notifications (trace w') = notifications (trace w)
  ∧ context_isOpen (DropdownMenu (m_root m) (m_generatedId m) w')
    = context_isOpen (DropdownMenu (m_root m) (m_generatedId m) w)
  ∧ activeElement w' = activeElement w
  ∧ triggerRef_current w' = triggerRef_current w.
Proof.
  intros w'. subst w'. rewrite pointerDown_turn. simpl.
  destruct (bool_decide _); simpl.
  - rewrite notifications_app, app_nil_r. by repeat split.
  - unfold prevents.
    destruct (onInteractOutside (m_popper m)) as [h|]; simpl;
      try destruct (h event); simpl;
      rewrite !notifications_app; simpl; rewrite !app_nil_r; by repeat split.
Qed.

(** X10.  When the flag is clear and no trigger element is attached to the
    ref, a close does nothing at all: nothing is focused and the event is not
    default-prevented. *)
Theorem close_without_trigger_does_nothing m w :
  skipCloseAutoFocus w = false →
  triggerRef_current w = None →
  turn getPartDataAttrObj m CloseAutoFocusOf w = fresh w.
Proof.
  intros Hs Ht. rewrite close_step, Hs, Ht.
  unfold fresh. by rewrite Hs, Ht.
Qed.

(** X11.  Whatever id the root ends up with, generated or the caller's, the
    [id] prop of the surface is that id, and where the caller passes no
    aria-controls to the trigger, the trigger's aria-controls is rendered
    exactly while the menu is open and is then the surface's [id]. *)
Theorem aria_controls_names_the_surface m w :
  let context := DropdownMenu (m_root m) (m_generatedId m) w in
  let surface := DropdownMenuPopper getPartDataAttrObj (m_popper m) context w in
  let trigger := DropdownMenuTrigger getPartDataAttrObj (m_trigger m) context in
  root_attrs surface !! "id" = Some (AString (context_id context))
  ∧ (attrs (triggerProps (m_trigger m)) !! "aria-controls" = None →
     rendered (el_attrs trigger !! "aria-controls") =
     if context_isOpen context then root_attrs surface !! "id" else None).
Proof.
  intros context surface trigger.
  assert (root_attrs surface !! "id" = Some (AString (context_id context))) as Hid.
  { subst surface. simpl. by rewrite lookup_insert_eq. }
  split; [done|]. intros Hown. rewrite Hid. subst trigger.
  rewrite trigger_attrs, lookup_union_r by done.
  rewrite lookup_insert_eq. by destruct (context_isOpen context).
Qed.

End Surface.

(** X12.  The id of the context is never the empty string.  When the caller
    passes no id, or the empty string, it is "dropdown-menu-" followed by the
    generated id; and it is the same in every render. *)
Theorem context_id_is_never_empty props gen w :
  let context := DropdownMenu props gen w in
  context_id context ≠ ""
  ∧ (idProp props = None ∨ idProp props = Some "" →
     context_id context = "dropdown-menu-" +:+ gen)
  ∧ ∀ w', context_id (DropdownMenu props gen w') = context_id context.
Proof.
  intros context.
  assert (∀ w, context_id (DropdownMenu props gen w)
               = or_string (idProp props) ("dropdown-menu-" +:+ gen)) as Hid.
  { intros w0. unfold DropdownMenu.
    by destruct (useControlledState _ w0). }
  subst context. rewrite Hid. split; [|split].
  - by destruct (idProp props) as [[|a s]|].
  - by intros [-> | ->].
  - intros w'. by rewrite Hid.
Qed.

(** ** The scenarios *)

(** X1 at work: the session leaves the menu open, and the trigger says so. *)
Lemma uncontrolled_open_state_follows_inputs_witness :
  context_isOpen
    (DropdownMenu Example.uncontrolled "7"
       (turns Example.getPartDataAttrObj Scenario.modal Scenario.session
          Scenario.mounted)) = true
  ∧ rendered
      (el_attrs
         (DropdownMenuTrigger Example.getPartDataAttrObj (m_trigger Scenario.modal)
            (DropdownMenu Example.uncontrolled "7"
               (turns Example.getPartDataAttrObj Scenario.modal Scenario.session
                  Scenario.mounted)))
         !! "aria-expanded") = Some (ABool true).
Proof.
  pose proof (uncontrolled_open_state_follows_inputs Example.getPartDataAttrObj
                Scenario.modal Scenario.session Scenario.mounted eq_refl)
    as (H1 & _ & H3).
  split; [exact H1 | exact (H3 eq_refl)].
Defined.

(** X2 at work: Enter on the trigger of the closed menu. *)
Lemma other_keys_are_left_alone_witness :
  defaultPrevented
    (turn Example.getPartDataAttrObj Scenario.modal
       (KeyDownOnTrigger Scenario.enter) Scenario.mounted) = false
  ∧ context_isOpen
      (DropdownMenu Example.uncontrolled "7"
         (turn Example.getPartDataAttrObj Scenario.modal
            (KeyDownOnTrigger Scenario.enter) Scenario.mounted)) = false.
Proof.
  pose proof (other_keys_are_left_alone Example.getPartDataAttrObj Scenario.modal
                Scenario.enter Scenario.mounted eq_refl) as (_ & H2 & _ & _ & H5).
  split; [exact H2 | exact H5].
Defined.

(** X7 at work: after the session and a pointer-down on the page, a close
    calls [focus()] on the trigger, element 1; it is a link without an href,
    so the focus stays on element 5. *)
Lemma modal_popper_always_restores_focus_witness :
  skipCloseAutoFocus
    (turns Example.getPartDataAttrObj Scenario.modal Scenario.sessionThenOutside
       Scenario.mounted) = false
  ∧ trace
      (turn Example.getPartDataAttrObj Scenario.modal CloseAutoFocusOf
         (turns Example.getPartDataAttrObj Scenario.modal Scenario.sessionThenOutside
            Scenario.mounted))
    = trace
        (turns Example.getPartDataAttrObj Scenario.modal Scenario.sessionThenOutside
           Scenario.mounted) ++ [Focus 1]
  ∧ activeElement
      (turn Example.getPartDataAttrObj Scenario.modal CloseAutoFocusOf
         (turns Example.getPartDataAttrObj Scenario.modal Scenario.sessionThenOutside
            Scenario.mounted)) = Some 5.
Proof.
  pose proof (modal_popper_always_restores_focus Example.getPartDataAttrObj
                Scenario.modal Scenario.sessionThenOutside Scenario.mounted 1
                eq_refl eq_refl eq_refl) as (Hs & _ & Ht & Ha).
  split; [exact Hs|]. split; [exact Ht|].
  vm_compute in Ha. vm_compute. exact Ha.
Defined.

(** X8 at work, on the menu with a button for a trigger: a pointer-down on
    element 9 of the page keeps the focus on element 5 at the close; a
    pointer-down on the trigger gives it to the trigger. *)
Lemma nonmodal_pointerDown_then_close_witness :
  activeElement
    (turn Example.getPartDataAttrObj Scenario.button CloseAutoFocusOf
       (turn Example.getPartDataAttrObj Scenario.button
          (PointerDownOutside {| target := Some 9 |}) Example.opened)) = Some 5
  ∧ activeElement
      (turn Example.getPartDataAttrObj Scenario.button CloseAutoFocusOf
         (turn Example.getPartDataAttrObj Scenario.button
            (PointerDownOutside {| target := Some 1 |}) Example.opened)) = Some 1.
Proof.
  split.
  - pose proof (proj1 (nonmodal_pointerDown_then_close Example.getPartDataAttrObj
                         Scenario.button {| target := Some 9 |} Example.opened
                         eq_refl) ltac:(discriminate) eq_refl) as (_ & H & _).
    exact H.
  - pose proof (proj2 (nonmodal_pointerDown_then_close Example.getPartDataAttrObj
                         Scenario.button {| target := Some 1 |} Example.opened
                         eq_refl) (or_introl eq_refl) 1 eq_refl) as (_ & _ & H).
    exact H.
Defined.

(** X10 at work: a close before the trigger element exists. *)
Lemma close_without_trigger_does_nothing_witness :
  turn Example.getPartDataAttrObj Scenario.modal CloseAutoFocusOf Scenario.unmounted
  = Scenario.unmounted.
Proof.
  exact (close_without_trigger_does_nothing Example.getPartDataAttrObj
           Scenario.modal Scenario.unmounted eq_refl eq_refl).
Defined.

(** X11 at work: the open menu with the generated id; the caller's id among
    the popper's props does not reach the surface. *)
Lemma aria_controls_names_the_surface_witness :
  root_attrs
    (DropdownMenuPopper Example.getPartDataAttrObj (m_popper Scenario.modal)
       (DropdownMenu Example.uncontrolled "7" Example.opened) Example.opened)
    !! "id" = Some (AString "dropdown-menu-7")
  ∧ rendered
      (el_attrs
         (DropdownMenuTrigger Example.getPartDataAttrObj (m_trigger Scenario.modal)
            (DropdownMenu Example.uncontrolled "7" Example.opened))
         !! "aria-controls") = Some (AString "dropdown-menu-7").
Proof.
  pose proof (aria_controls_names_the_surface Example.getPartDataAttrObj
                Scenario.modal Example.opened) as (H1 & H2).
  split; [exact H1|]. etransitivity; [exact (H2 eq_refl)|exact H1].
Defined.

(** X12 at work: the empty string as id. *)
Lemma context_id_is_never_empty_witness :
  context_id (DropdownMenu Scenario.emptyId "7" Scenario.mounted) = "dropdown-menu-7".
Proof.
  exact (proj1 (proj2 (context_id_is_never_empty Scenario.emptyId "7" Scenario.mounted))
           (or_intror eq_refl)).
Defined.
